(** * Approval callbacks of the insurance-notification agent

    A shallow embedding of [src/approval_api.py]: the helper
    [push_response_to_adk] and the four FastAPI handlers
    [approve_request], [reject_request], [get_status] and
    [get_pending_approvals], together with the ticket store they call
    into.  Python values are an inductive type, dictionaries built by
    the handlers are association lists in insertion order, the ticket
    store is a finite map, and the effects of the code (printing,
    the outbound POST, raising) are threaded through a small
    state-and-exception monad. *)

From Stdlib Require Import ZArith.
From stdpp Require Import gmap strings list fin_maps.

Open Scope string_scope.
Open Scope list_scope.
Open Scope nat_scope.
Set Warnings "-register-all".

(** ** Python values *)

Module Py.

(** The values that flow through the handlers: [None], booleans,
    integers, strings, lists and dictionaries with string keys. *)
Inductive value : Type :=
| VNone
| VBool (b : bool)
| VInt (n : Z)
| VStr (s : string)
| VList (xs : list value)
| VDict (d : list (string * value)).

(** Truth value of an object, as tested by [not x] and [if x]. *)
Definition truthy (v : value) : bool :=
  match v with
  | VNone => false
  | VBool b => b
  | VInt n => negb (n =? 0)%Z
  | VStr s => negb (String.eqb s "")
  | VList xs => match xs with [] => false | _ :: _ => true end
  | VDict d => match d with [] => false | _ :: _ => true end
  end.

(** [v == "lit"] for a string literal: only a string with the same
    characters compares equal. *)
Definition eq_str (v : value) (lit : string) : bool :=
  match v with
  | VStr s => String.eqb s lit
  | _ => false
  end.

(** Lookup of a key in a dictionary literal. *)
Fixpoint assoc (k : string) (d : list (string * value)) : option value :=
  match d with
  | [] => None
  | (k', v) :: d' => if String.eqb k k' then Some v else assoc k d'
  end.

(** Exceptions that the modelled code can raise. *)
Inductive exn : Type :=
| HTTPException (status_code : Z) (detail : value)
| AttributeError (attr : string)
| KeyError (key : string)
| RequestError (msg : string).

Inductive result (A : Type) : Type :=
| Ok (a : A)
| Exc (e : exn).
Arguments Ok {A} a.
Arguments Exc {A} e.

(** [obj.get(k, dflt)]: defined on dictionaries, an
    [AttributeError] on every other object. *)
Definition get (obj : value) (k : string) (dflt : value) : result value :=
  match obj with
  | VDict d => Ok (default dflt (assoc k d))
  | _ => Exc (AttributeError "get")
  end.

(** [obj[k]] on a dictionary: a [KeyError] when the key is missing. *)
Definition getitem (d : list (string * value)) (k : string) : result value :=
  match assoc k d with
  | Some v => Ok v
  | None => Exc (KeyError k)
  end.

Definition of_option (o : option string) : value :=
  match o with
  | Some s => VStr s
  | None => VNone
  end.

End Py.
Export Py.

(** ** The ticket record and the store *)

(** Modelled from the spec: the enumeration of ticket states of
    [approval_manager] (the module is imported by
    [src/approval_api.py] and is not among the sources); section 3 of
    the specification gives the three values. *)
Inductive Status : Type :=
| pending
| approved
| rejected.

#[global] Instance Status_eq_dec : EqDecision Status.
Proof. solve_decision. Defined.

(** The string stored in the record's [status] attribute. *)
Definition status_value (st : Status) : string :=
  match st with
  | pending => "pending"
  | approved => "approved"
  | rejected => "rejected"
  end.

Definition is_terminal (st : Status) : bool :=
  match st with
  | pending => false
  | approved | rejected => true
  end.

(** Modelled from the spec: the [ApprovalRequest] dataclass of
    [approval_manager], with the attributes that section 3 lists and
    that the handlers read ([ticket_id], [claim_id], [user_email],
    [request_type], [status], [created_at], [updated_at]) or reach
    through [asdict] ([function_call_id], [metadata]). *)
Record ApprovalRequest : Type := mkApprovalRequest {
  ticket_id : string;
  claim_id : string;
  user_email : string;
  request_type : string;
  status : Status;
  created_at : string;
  updated_at : string;
  function_call_id : option string;
  metadata : list (string * value);
  approver_notes : option string;
  rejection_reason : option string
}.

(** [dataclasses.asdict]: the record as a dictionary, field by field. *)
Definition asdict (r : ApprovalRequest) : list (string * value) :=
  [ ("ticket_id", VStr (ticket_id r));
    ("claim_id", VStr (claim_id r));
    ("user_email", VStr (user_email r));
    ("request_type", VStr (request_type r));
    ("status", VStr (status_value (status r)));
    ("created_at", VStr (created_at r));
    ("updated_at", VStr (updated_at r));
    ("function_call_id", of_option (function_call_id r));
    ("metadata", VDict (metadata r));
    ("approver_notes", of_option (approver_notes r));
    ("rejection_reason", of_option (rejection_reason r)) ].

(** ** Effects *)

(** One constructor per [print] call of [push_response_to_adk], holding
    the values interpolated into the line. *)
Inductive printed : Type :=
| MissingSessionInfo
| PushingFunctionResponse (push_url : string)
| SessionLine (user_id session_id : value)
| FunctionCallIdLine (function_call_id : value)
| StatusLine (approval_status : string)
| ResumedAgent (approval_status : string)
| FailedToResume (status_code : Z) (text : string)
| ErrorPushing (e : exn)
| Traceback (e : exn).

(** What the process does to the outside: a line on standard output, or
    a request [client.post(url, json=body)] on a client created with
    the given timeout in seconds. *)
Inductive event : Type :=
| Print (line : printed)
| Post (url : string) (timeout : Z) (body : value).

(** What the agent runtime does with a request: it answers with a status
    code and a body text, or the call raises. *)
Inductive post_outcome : Type :=
| Responded (status_code : Z) (text : string)
| Raised (e : exn).

(** The surroundings of one request: the environment variable
    [ADK_API_URL], the agent runtime behind the HTTP client, and the
    clock read when a ticket is stamped. *)
Record Env : Type := mkEnv {
  ADK_API_URL : option string;
  adk : string -> value -> post_outcome;
  now : string
}.

(** The process state: the [approval_manager] singleton's tickets and
    everything emitted so far, oldest first. *)
Record World : Type := mkWorld {
  approvals : gmap string ApprovalRequest;
  trace : list event
}.

(** Computations of the handlers: read the surroundings, update the
    world, and return normally or raise. *)
Definition M (A : Type) : Type := Env -> World -> result A * World.

Definition ret {A} (a : A) : M A := fun _ w => (Ok a, w).

Definition bind {A B} (m : M A) (k : A -> M B) : M B :=
  fun env w =>
    match m env w with
    | (Ok a, w') => k a env w'
    | (Exc e, w') => (Exc e, w')
    end.

Definition raise {A} (e : exn) : M A := fun _ w => (Exc e, w).

(** [try: body  except Exception as e: handler(e)]. *)
Definition try_except {A} (body : M A) (handler : exn -> M A) : M A :=
  fun env w =>
    match body env w with
    | (Ok a, w') => (Ok a, w')
    | (Exc e, w') => handler e env w'
    end.

Definition lift {A} (r : result A) : M A := fun _ w => (r, w).

Definition emit (e : event) : M unit :=
  fun _ w => (Ok tt, mkWorld (approvals w) (trace w ++ [e])).

Definition print (line : printed) : M unit := emit (Print line).

Definition getenv_ADK_API_URL (dflt : string) : M string :=
  fun env w => (Ok (default dflt (ADK_API_URL env)), w).

(** [async with httpx.AsyncClient(timeout=...) as client:
    response = await client.post(url, json=body)]: the request goes out
    and the runtime's outcome comes back, as a response or as a raise. *)
Definition client_post (timeout : Z) (url : string) (body : value)
  : M (Z * string) :=
  fun env w =>
    let w' := mkWorld (approvals w) (trace w ++ [Post url timeout body]) in
    match adk env url body with
    | Responded code text => (Ok (code, text), w')
    | Raised e => (Exc e, w')
    end.

#[global] Instance M_ret : MRet M := @ret.
#[global] Instance M_bind : MBind M := fun A B k m => bind m k.

(** ** The ticket store ([approval_manager]) *)

Module Manager.

(** Modelled from the spec: the messages of the two error results of
    [approval_manager]; the specification names the conditions
    (not-found, already-terminal) and leaves the wording open. *)
Definition not_found_message (ticket_id : string) : string :=
  "Ticket " +:+ ticket_id +:+ " not found".

Definition already_terminal_message (ticket_id : string) (st : Status) : string :=
  "Ticket " +:+ ticket_id +:+ " already " +:+ status_value st.

Definition error_result (message : string) : list (string * value) :=
  [ ("status", VStr "error"); ("message", VStr message) ].

(** Modelled from the spec: [create] of [approval_manager] (section
    4.1): a new record in state [pending], stored under its ticket
    identifier.  The identifier generated at creation is the first
    argument. *)
Definition create (new_id claim user_mail req_type : string)
    (call_id : option string) (session_info : value) : M string :=
  fun env w =>
    let r := mkApprovalRequest new_id claim user_mail req_type pending
               (now env) (now env) call_id
               [("session_info", session_info)] None None in
    (Ok new_id, mkWorld (<[new_id := r]> (approvals w)) (trace w)).

(** Modelled from the spec: [get_approval] of [approval_manager]
    (section 4.1, [get]): the record, or [None] when the identifier is
    unknown; the store is left as it is. *)
Definition get_approval (id : string) : M (option ApprovalRequest) :=
  fun _ w => (Ok (approvals w !! id), w).

(** The record after its one transition: the new status, the stamp and
    the free text of the decision. *)
Definition transition (r : ApprovalRequest) (st : Status) (stamp : string)
    (notes reason : option string) : ApprovalRequest :=
  mkApprovalRequest (ticket_id r) (claim_id r) (user_email r) (request_type r)
    st (created_at r) stamp (function_call_id r) (metadata r)
    (from_option Some (approver_notes r) notes)
    (from_option Some (rejection_reason r) reason).

(** Modelled from the spec: [approve] and [reject] of
    [approval_manager] (section 4.1): an error result for an unknown
    ticket, an error result for a ticket that already left [pending]
    (the attempt is rejected, not reapplied), and otherwise the record
    with its status set and [updated_at] stamped. *)
Definition decide_ticket (st : Status) (id : string)
    (notes reason : option string) : M (list (string * value)) :=
  fun env w =>
    match approvals w !! id with
    | None => (Ok (error_result (not_found_message id)), w)
    | Some r =>
      if is_terminal (status r)
      then (Ok (error_result (already_terminal_message id (status r))), w)
      else
        let r' := transition r st (now env) notes reason in
        (Ok (asdict r'), mkWorld (<[id := r']> (approvals w)) (trace w))
    end.

Definition approve (id : string) (notes : string) : M (list (string * value)) :=
  decide_ticket approved id (Some notes) None.

Definition reject (id : string) (reason : string) : M (list (string * value)) :=
  decide_ticket rejected id None (Some reason).

(** Modelled from the spec: [get_all_pending] of [approval_manager]
    (section 4.1, [list_pending]): the records whose status is
    [pending], in the order in which the map enumerates them (nothing
    proved below depends on that order). *)
Definition get_all_pending : M (list ApprovalRequest) :=
  fun _ w =>
    (Ok (filter (fun r => status r = pending) (map_to_list (approvals w)).*2), w).

End Manager.

(** ** [push_response_to_adk] *)

Definition function_response (approval_status : string) (ticket claim : value)
  : value :=
  VDict [ ("status", VStr "success");
          ("approval_status", VStr approval_status);
          ("ticket_id", ticket);
          ("claim_id", claim);
          ("message", VStr ("Claim verification " +:+ approval_status +:+ " by user")) ].

Definition payload (app_name user_id session_id call_id response : value)
  : value :=
  VDict [ ("app_name", app_name);
          ("user_id", user_id);
          ("session_id", session_id);
          ("new_message",
           VDict [ ("role", VStr "function");
                   ("parts",
                    VList [ VDict [ ("function_response",
                                     VDict [ ("name", VStr "request_claim_approval");
                                             ("id", call_id);
                                             ("response", response) ]) ] ]) ]) ].

(** The body of the [try] block, lines 45 to 96. *)
Definition push_body (approval_request : list (string * value))
    (approval_status : string) : M bool :=
  md ← lift (get (VDict approval_request) "metadata" (VDict []));
  session_info ← lift (get md "session_info" (VDict []));
  call_id ← lift (get (VDict approval_request) "function_call_id" VNone);
  if negb (truthy call_id) || negb (truthy session_info) then
    print MissingSessionInfo;;
    mret false
  else
    adk_api_url ← getenv_ADK_API_URL "http://localhost:8000";
    ticket ← lift (get (VDict approval_request) "ticket_id" VNone);
    claim ← lift (get (VDict approval_request) "claim_id" VNone);
    let response := function_response approval_status ticket claim in
    let push_url := adk_api_url +:+ "/run" in
    app_name ← lift (get session_info "app_name" VNone);
    user ← lift (get session_info "user_id" VNone);
    session ← lift (get session_info "session_id" VNone);
    let body := payload app_name user session call_id response in
    print (PushingFunctionResponse push_url);;
    user' ← lift (get session_info "user_id" VNone);
    session' ← lift (get session_info "session_id" VNone);
    print (SessionLine user' session');;
    print (FunctionCallIdLine call_id);;
    print (StatusLine approval_status);;
    resp ← client_post 30 push_url body;
    if (resp.1 =? 200)%Z then
      print (ResumedAgent approval_status);;
      mret true
    else
      print (FailedToResume resp.1 resp.2);;
      mret false.

Definition push_response_to_adk (approval_request : list (string * value))
    (approval_status : string) : M bool :=
  try_except (push_body approval_request approval_status)
    (fun e =>
       print (ErrorPushing e);;
       print (Traceback e);;
       mret false).

(** ** The handlers *)

(** The confirmation page: the template's title and headline and the
    values interpolated into its details block (the style sheet and
    the fixed paragraphs are left out). *)
Record page : Type := mkPage {
  title : string;
  headline : string;
  shown_ticket_id : string;
  shown_claim_id : value;
  shown_status : string
}.

Inductive response : Type :=
| HTMLResponse (content : page)
| JSONResponse (content : value).

Definition approve_request (id : string) : M response :=
  approval_request ← Manager.get_approval id;
  match approval_request with
  | None =>
    raise (HTTPException 404 (VStr ("Ticket " +:+ id +:+ " not found")))
  | Some req =>
    let approval_dict := asdict req in
    res ← Manager.approve id "Approved via email link";
    st ← lift (getitem res "status");
    if eq_str st "error" then
      message ← lift (getitem res "message");
      raise (HTTPException 404 message)
    else
      push_response_to_adk approval_dict "approved";;
      mret (HTMLResponse
              (mkPage "Claim Approved" "Claim Approved Successfully" id
                      (default (VStr "N/A") (assoc "claim_id" res)) "Approved"))
  end.

Definition reject_request (id : string) : M response :=
  approval_request ← Manager.get_approval id;
  match approval_request with
  | None =>
    raise (HTTPException 404 (VStr ("Ticket " +:+ id +:+ " not found")))
  | Some req =>
    let approval_dict := asdict req in
    res ← Manager.reject id "Rejected via email link";
    st ← lift (getitem res "status");
    if eq_str st "error" then
      message ← lift (getitem res "message");
      raise (HTTPException 404 message)
    else
      push_response_to_adk approval_dict "rejected";;
      mret (HTMLResponse
              (mkPage "Claim Rejected" "Claim Submission Rejected" id
                      (default (VStr "N/A") (assoc "claim_id" res)) "Rejected"))
  end.

Definition get_status (id : string) : M response :=
  request ← Manager.get_approval id;
  match request with
  | None =>
    raise (HTTPException 404 (VStr ("Ticket " +:+ id +:+ " not found")))
  | Some request =>
    mret (JSONResponse
            (VDict [ ("ticket_id", VStr (ticket_id request));
                     ("claim_id", VStr (claim_id request));
                     ("status", VStr (status_value (status request)));
                     ("request_type", VStr (request_type request));
                     ("created_at", VStr (created_at request));
                     ("updated_at", VStr (updated_at request)) ]))
  end.

Definition pending_item (req : ApprovalRequest) : value :=
  VDict [ ("ticket_id", VStr (ticket_id req));
          ("claim_id", VStr (claim_id req));
          ("user_email", VStr (user_email req));
          ("request_type", VStr (request_type req));
          ("created_at", VStr (created_at req)) ].

Definition get_pending_approvals : M response :=
  pending_reqs ← Manager.get_all_pending;
  mret (JSONResponse
          (VDict [ ("count", VInt (Z.of_nat (length pending_reqs)));
                   ("pending_approvals", VList (pending_item <$> pending_reqs)) ])).

(** The status code FastAPI answers with: 200 for a returned response,
    the code of a raised [HTTPException], 500 for any other exception. *)
Definition http_status (r : result response) : Z :=
  match r with
  | Ok _ => 200
  | Exc (HTTPException code _) => code
  | Exc _ => 500
  end.

(** ** Vocabulary of the statements *)

(** The two links of the notification e-mail. *)
Inductive decision : Type :=
| Approve
| Reject.

Definition handle (dec : decision) (id : string) : M response :=
  match dec with
  | Approve => approve_request id
  | Reject => reject_request id
  end.

(** The status string that the handler of a link passes to
    [push_response_to_adk]. *)
Definition decision_word (dec : decision) : string :=
  match dec with
  | Approve => "approved"
  | Reject => "rejected"
  end.

(** The record that the handler of a link leaves in the store when the
    transition goes through. *)
Definition decided (dec : decision) (r : ApprovalRequest) (stamp : string)
  : ApprovalRequest :=
  match dec with
  | Approve =>
    Manager.transition r approved stamp (Some "Approved via email link") None
  | Reject =>
    Manager.transition r rejected stamp None (Some "Rejected via email link")
  end.

(** The page that the handler of a link returns. *)
Definition confirmation (dec : decision) (id : string) (claim : value) : page :=
  match dec with
  | Approve => mkPage "Claim Approved" "Claim Approved Successfully" id claim "Approved"
  | Reject => mkPage "Claim Rejected" "Claim Submission Rejected" id claim "Rejected"
  end.

(** The caller is shown a confirmation page. *)
Definition shows_confirmation (r : result response) : Prop :=
  ∃ p, r = Ok (HTMLResponse p).

(** The URL and the body of the request that [push_response_to_adk]
    sends for the dictionary [d] whose session information is [si]. *)
Definition push_url_of (env : Env) : string :=
  default "http://localhost:8000" (ADK_API_URL env) +:+ "/run".

Definition body_of (d si : list (string * value)) (st : string) : value :=
  payload (default VNone (assoc "app_name" si))
          (default VNone (assoc "user_id" si))
          (default VNone (assoc "session_id" si))
          (default VNone (assoc "function_call_id" d))
          (function_response st (default VNone (assoc "ticket_id" d))
                             (default VNone (assoc "claim_id" d))).

(** Number of requests sent to the agent runtime in a trace. *)
Fixpoint posts (t : list event) : nat :=
  match t with
  | [] => 0
  | Post _ _ _ :: t' => S (posts t')
  | Print _ :: t' => posts t'
  end.

(** A request as it arrives: which link, for which ticket, and the
    surroundings at that moment. *)
Record request : Type := mkRequest {
  link : decision;
  target : string;
  surroundings : Env
}.

Definition serve_one (rq : request) (w : World) : World :=
  (handle (link rq) (target rq) (surroundings rq) w).2.

(** Requests sent to the agent runtime on behalf of ticket [id] while
    the sequence [rqs] is served from [w], one request after the
    other.  (A handler runs without yielding from its lookup to the
    end of the store's transition, so the transitions of concurrent
    requests are ordered as in such a sequence.) *)
Fixpoint posts_for (id : string) (rqs : list request) (w : World) : nat :=
  match rqs with
  | [] => 0
  | rq :: rest =>
    let w' := serve_one rq w in
    (if decide (target rq = id)
     then posts (trace w') - posts (trace w) else 0)
    + posts_for id rest w'
  end.

(** A ticket whose correlation data lets the push go out: a non-empty
    function-call identifier and a non-empty session dictionary. *)
Definition has_correlation (r : ApprovalRequest) : Prop :=
  truthy (of_option (function_call_id r)) = true ∧
  ∃ si, assoc "session_info" (metadata r) = Some (VDict si) ∧ si ≠ [].

(** A ticket without correlation data: no function-call identifier
    ([None] or the empty string), or no session information in its
    metadata (the key is absent, or holds [None] or an empty value). *)
Definition lacks_correlation (r : ApprovalRequest) : Prop :=
  truthy (of_option (function_call_id r)) = false
  ∨ truthy (default (VDict []) (assoc "session_info" (metadata r))) = false.

(** Direct calls of the store's two transitions. *)
Inductive store_call : Type :=
| CallApprove (id notes : string)
| CallReject (id reason : string).

Definition store_step (c : store_call) (env : Env) (w : World) : World :=
  match c with
  | CallApprove id notes => (Manager.approve id notes env w).2
  | CallReject id reason => (Manager.reject id reason env w).2
  end.

Definition store_run (cs : list (store_call * Env)) (w : World) : World :=
  foldl (fun w c => store_step c.1 c.2 w) w cs.

(** Whether a call changed the status stored for ticket [id]. *)
Definition status_of (id : string) (w : World) : option Status :=
  status <$> approvals w !! id.

Fixpoint status_changes (id : string) (cs : list (store_call * Env)) (w : World)
  : nat :=
  match cs with
  | [] => 0
  | c :: rest =>
    let w' := store_step c.1 c.2 w in
    (if decide (status_of id w' = status_of id w) then 0 else 1)
    + status_changes id rest w'
  end.

(** The transitions still open to a ticket: one while it is pending,
    none once it is decided or when it does not exist. *)
Definition open_transitions (id : string) (w : World) : nat :=
  match approvals w !! id with
  | Some r => if is_terminal (status r) then 0 else 1
  | None => 0
  end.

(** The pending tickets of a store. *)
Definition pending_tickets (m : gmap string ApprovalRequest)
  : gmap string ApprovalRequest :=
  filter (fun kv => status kv.2 = pending) m.

(** The status a link leads to. *)
Definition decision_status (dec : decision) : Status :=
  match dec with
  | Approve => approved
  | Reject => rejected
  end.

(** The store's transition that the handler of a link attempts. *)
Definition attempt (dec : decision) (id : string) : M (list (string * value)) :=
  match dec with
  | Approve => Manager.approve id "Approved via email link"
  | Reject => Manager.reject id "Rejected via email link"
  end.

(** Everything that can happen to the process: a ticket is created by
    the agent's tool, or one of the four endpoints is requested. *)
Inductive api_call : Type :=
| CreateTicket (new_id claim mail req_type : string) (call_id : option string)
               (session_info : value)
| Click (dec : decision) (id : string)
| StatusQuery (id : string)
| PendingQuery.

Definition api_step (c : api_call) (env : Env) (w : World) : World :=
  match c with
  | CreateTicket new_id claim mail req_type call_id session_info =>
    (Manager.create new_id claim mail req_type call_id session_info env w).2
  | Click dec id => (handle dec id env w).2
  | StatusQuery id => (get_status id env w).2
  | PendingQuery => (get_pending_approvals env w).2
  end.

Definition api_run (cs : list (api_call * Env)) (w : World) : World :=
  foldl (fun w c => api_step c.1 c.2 w) w cs.

Definition creates (id : string) (c : api_call) : Prop :=
  match c with
  | CreateTicket new_id _ _ _ _ _ => new_id = id
  | _ => False
  end.

(** The process at start-up: no ticket, nothing emitted. *)
Definition initial_world : World := mkWorld ∅ [].

(** ** Sample data *)

Definition session_demo : value :=
  VDict [ ("app_name", VStr "insurance_notification");
          ("user_id", VStr "customer_001");
          ("session_id", VStr "session_001") ].

Definition ticket_T1 : ApprovalRequest :=
  mkApprovalRequest "T1" "C1" "customer@example.com" "claim_verification"
    pending "2025-01-01T10:00:00" "2025-01-01T10:00:00"
    (Some "call-1") [("session_info", session_demo)] None None.

Definition ticket_T2 : ApprovalRequest :=
  mkApprovalRequest "T2" "C2" "customer@example.com" "claim_verification"
    pending "2025-01-01T10:01:00" "2025-01-01T10:01:00"
    None [] None None.

Definition world_T1 : World := mkWorld {[ "T1" := ticket_T1 ]} [].

Definition world_T1_T2 : World :=
  mkWorld (<[ "T2" := ticket_T2 ]> {[ "T1" := ticket_T1 ]}) [].

Definition runtime_ok : Env :=
  mkEnv None (fun _ _ => Responded 200 "{}") "2025-01-01T10:05:00".

Definition runtime_failing : Env :=
  mkEnv None (fun _ _ => Responded 500 "Internal Server Error")
        "2025-01-01T10:05:00".

Definition runtime_down : Env :=
  mkEnv (Some "http://adk:8000")
        (fun _ _ => Raised (RequestError "All connection attempts failed"))
        "2025-01-01T10:05:00".

(** The world after the link of [T1] was clicked once. *)
Definition world_T1_approved : World :=
  serve_one (mkRequest Approve "T1" runtime_ok) world_T1.

(** ** The handlers after the store's answer *)

(** Lines 138 to 198 of [approve_request] and lines 220 to 283 of
    [reject_request]: what the handler of a link does with the
    dictionary [res] that the store's transition returned, whatever
    that dictionary is.  [approval_dict] is the snapshot taken at line
    133 (215). *)
Definition after_transition (dec : decision) (id : string)
    (approval_dict res : list (string * value)) : M response :=
  st ← lift (getitem res "status");
  if eq_str st "error" then
    message ← lift (getitem res "message");
    raise (HTTPException 404 message)
  else
    push_response_to_adk approval_dict (decision_word dec);;
    mret (HTMLResponse
            (confirmation dec id (default (VStr "N/A") (assoc "claim_id" res)))).

Definition is_dict (v : value) : bool :=
  match v with
  | VDict _ => true
  | _ => false
  end.

(** The four keys of the request dictionary that
    [push_response_to_adk] reads. *)
Definition keys_read : list string :=
  [ "metadata"; "function_call_id"; "ticket_id"; "claim_id" ].

(** ** The agent server's listing ([src/server.py]) *)

(** The pydantic model [ApprovalStatus] of [src/server.py]. *)
Module ApprovalStatus.

Record t : Type := mk {
  ticket_id : string;
  claim_id : string;
  user_email : string;
  status : string;
  created_at : string
}.

End ApprovalStatus.

Module Server.

(** The two kinds of value in the dictionary that the function
    returns: the integer under [count] and the list of models under
    [pending_approvals]. *)
Inductive returned : Type :=
| Count (n : Z)
| Models (l : list ApprovalStatus.t).

(** [get_pending_approvals] of [src/server.py], lines 102 to 124: the
    value the function returns. *)
Definition get_pending_approvals : M (list (string * returned)) :=
  pending_reqs ← Manager.get_all_pending;
  mret [ ("count", Count (Z.of_nat (length pending_reqs)));
         ("pending_approvals",
          Models ((fun req =>
                     ApprovalStatus.mk (ticket_id req) (claim_id req)
                       (user_email req) (status_value (status req))
                       (created_at req)) <$> pending_reqs)) ].

(** The return annotation of line 103,
    [dict[str, list[ApprovalStatus]]]: every value of the dictionary is
    a list of models. *)
Definition matches_annotation (d : list (string * returned)) : bool :=
  forallb (fun kv => match kv.2 with Models _ => true | Count _ => false end) d.

End Server.

(** ** The report of the e-mail test ([src/test_email.py]) *)

Module TestEmail.

(** One constructor per [print] call of lines 58 to 79, holding the
    value interpolated into the line. *)
Inductive line : Type :=
| Rule (c : string)
| ResultHeader
| StatusField (v : value)
| RecipientField (v : value)
| SubjectField (v : value)
| ModeDemo
| ModeProduction
| Blank
| SentSuccessfully
| CheckInbox
| ErrorMessage (v : value)
| ErrorDetails (v : value).

(** Printing computations: the lines printed so far are threaded
    through, and a computation returns or raises. *)
Definition W (A : Type) : Type := list line -> result A * list line.

Definition wret {A} (a : A) : W A := fun out => (Ok a, out).

Definition wbind {A B} (m : W A) (k : A -> W B) : W B :=
  fun out =>
    match m out with
    | (Ok a, out') => k a out'
    | (Exc e, out') => (Exc e, out')
    end.

#[global] Instance W_ret : MRet W := @wret.
#[global] Instance W_bind : MBind W := fun A B k m => wbind m k.

Definition tell (l : line) : W unit := fun out => (Ok tt, out ++ [l]).

Definition item (d : list (string * value)) (k : string) : W value :=
  fun out => (getitem d k, out).

(** Lines 58 to 81 of [send_test_email]: the report on the dictionary
    [res] that [send_email_notification] returned. *)
Definition report (res : list (string * value)) : W (list (string * value)) :=
  tell (Rule "-");;
  tell ResultHeader;;
  st ← item res "status";
  tell (StatusField st);;
  recipient ← item res "recipient";
  tell (RecipientField recipient);;
  subject ← item res "subject";
  tell (SubjectField subject);;
  (if truthy (default VNone (assoc "demo_mode" res))
   then tell ModeDemo
   else tell ModeProduction);;
  st' ← item res "status";
  (if eq_str st' "success" then
     tell Blank;;
     tell SentSuccessfully;;
     if negb (truthy (default VNone (assoc "demo_mode" res)))
     then tell CheckInbox
     else mret tt
   else
     tell Blank;;
     tell (ErrorMessage (default VNone (assoc "message" res)));;
     if truthy (default VNone (assoc "error" res))
     then (e ← item res "error"; tell (ErrorDetails e))
     else mret tt);;
  tell (Rule "=");;
  mret res.

(** A sample result: a successful send in demo mode. *)
Definition demo_success : list (string * value) :=
  [ ("status", VStr "success");
    ("recipient", VStr "analyticsrepo@gmail.com");
    ("subject", VStr "Test - Insurance Notification System");
    ("demo_mode", VBool true) ].

End TestEmail.

(** ** Running the monad *)

Ltac run_M :=
  unfold mbind, M_bind, bind, mret, M_ret, ret, lift, raise, print, emit,
    try_except, getenv_ADK_API_URL, client_post in *; simpl in *.

(** ** [push_response_to_adk], case by case *)

(** The three ways a call can go: the guard of line 48 fires; an
    exception is raised before anything is sent; or the request goes
    out and the runtime's outcome decides the result. *)
Lemma push_cases d st env w :
  ∃ b evs,
    push_response_to_adk d st env w
      = (Ok b, mkWorld (approvals w) (trace w ++ evs)) ∧
    ((b = false ∧ evs = [Print MissingSessionInfo] ∧
      ∃ si, get (default (VDict []) (assoc "metadata" d)) "session_info" (VDict [])
              = Ok si ∧
            (truthy (default VNone (assoc "function_call_id" d)) = false
             ∨ truthy si = false))
     ∨ (b = false ∧
        (∃ e, evs = [Print (ErrorPushing e); Print (Traceback e)]) ∧
        ∀ si, get (default (VDict []) (assoc "metadata" d)) "session_info" (VDict [])
                ≠ Ok (VDict si))
     ∨ (∃ si tail,
          get (default (VDict []) (assoc "metadata" d)) "session_info" (VDict [])
            = Ok (VDict si) ∧
          truthy (default VNone (assoc "function_call_id" d)) = true ∧
          si ≠ [] ∧
          evs = [ Print (PushingFunctionResponse (push_url_of env));
                  Print (SessionLine (default VNone (assoc "user_id" si))
                                     (default VNone (assoc "session_id" si)));
                  Print (FunctionCallIdLine
                           (default VNone (assoc "function_call_id" d)));
                  Print (StatusLine st);
                  Post (push_url_of env) 30 (body_of d si st) ] ++ tail ∧
          match adk env (push_url_of env) (body_of d si st) with
          | Responded c t =>
            if (c =? 200)%Z then b = true ∧ tail = [Print (ResumedAgent st)]
            else b = false ∧ tail = [Print (FailedToResume c t)]
          | Raised e =>
            b = false ∧ tail = [Print (ErrorPushing e); Print (Traceback e)]
          end)).
Proof.
  unfold push_response_to_adk, push_body. run_M.
  destruct (get (default (VDict []) (assoc "metadata" d)) "session_info" (VDict []))
    as [si|e] eqn:Hsi.
  - destruct (truthy (default VNone (assoc "function_call_id" d))) eqn:Hc; simpl.
    + destruct (truthy si) eqn:Hs; simpl.
      * destruct si as [| | | | |si]; simpl in *; try discriminate.
        all: try (eexists false, _; split;
                  [rewrite <- !app_assoc; reflexivity|]; right; left;
                  split; [done|]; split; [eauto|done]).
        destruct si as [|kv si]; [discriminate|].
        set (si' := kv :: si) in *.
        unfold push_url_of, body_of.
        destruct (adk env _ _) as [c t|e] eqn:Ha; simpl.
        -- destruct (c =? 200)%Z eqn:Hc2; simpl.
           ++ eexists true, _. split; [rewrite <- !app_assoc; simpl; reflexivity|].
              right; right. exists si', [Print (ResumedAgent st)].
              rewrite Ha, Hc2. repeat split; try done.
           ++ eexists false, _. split; [rewrite <- !app_assoc; simpl; reflexivity|].
              right; right. exists si', [Print (FailedToResume c t)].
              rewrite Ha, Hc2. repeat split; try done.
        -- eexists false, _. split; [rewrite <- !app_assoc; simpl; reflexivity|].
           right; right. exists si', [Print (ErrorPushing e); Print (Traceback e)].
           rewrite Ha. repeat split; try done.
      * eexists false, _. split; [reflexivity|]. left. eauto 10.
    + eexists false, _. split; [reflexivity|]. left. eauto 10.
  - eexists false, _. split; [rewrite <- !app_assoc; reflexivity|].
    right; left. split; [done|]. split; [eauto|done].
Qed.

(** Membership in the short event lists of the cases above. *)
Ltac list_mem :=
  rewrite ?elem_of_app, ?elem_of_cons, ?elem_of_nil in *;
  intuition (try discriminate; try congruence).

(** In the third case the request of the fifth event is the only one. *)
Lemma sent_request env d si st b tail url t body :
  match adk env (push_url_of env) (body_of d si st) with
  | Responded c tx =>
    if (c =? 200)%Z then b = true ∧ tail = [Print (ResumedAgent st)]
    else b = false ∧ tail = [Print (FailedToResume c tx)]
  | Raised e =>
    b = false ∧ tail = [Print (ErrorPushing e); Print (Traceback e)]
  end →
  Post url t body ∈
    [ Print (PushingFunctionResponse (push_url_of env));
      Print (SessionLine (default VNone (assoc "user_id" si))
                         (default VNone (assoc "session_id" si)));
      Print (FunctionCallIdLine (default VNone (assoc "function_call_id" d)));
      Print (StatusLine st);
      Post (push_url_of env) 30 (body_of d si st) ] ++ tail →
  url = push_url_of env ∧ t = 30%Z ∧ body = body_of d si st.
Proof.
  intros Hout Hin.
  destruct (adk env (push_url_of env) _) as [c tx|e].
  - destruct (c =? 200)%Z; destruct Hout as [_ ->]; list_mem.
  - destruct Hout as [_ ->]; list_mem.
Qed.

(** A call never raises and never touches the store. *)
Lemma push_total d st env w :
  ∃ b evs,
    push_response_to_adk d st env w
      = (Ok b, mkWorld (approvals w) (trace w ++ evs)).
Proof. destruct (push_cases d st env w) as (b & evs & H & _). eauto. Qed.

Lemma posts_app t1 t2 : posts (t1 ++ t2) = posts t1 + posts t2.
Proof. induction t1 as [|[l|u t b] t1 IH]; simpl; [done|done|by rewrite IH]. Qed.

(** A call sends at most one request. *)
Lemma push_posts_le d st env w :
  posts (trace (push_response_to_adk d st env w).2) ≤ posts (trace w) + 1.
Proof.
  destruct (push_cases d st env w) as (b & evs & -> & H); simpl.
  rewrite posts_app.
  destruct H as [(_ & -> & _)|[(_ & (e & ->) & _)|(si & tail & _ & _ & _ & -> & H)]];
    [cbn; lia | cbn; lia |].
  rewrite posts_app.
  destruct (adk _ _ _) as [c t|e].
  - destruct (c =? 200)%Z; destruct H as [_ ->]; cbn; lia.
  - destruct H as [_ ->]; cbn; lia.
Qed.

(** ** The handlers, case by case *)

Lemma asdict_metadata r :
  assoc "metadata" (asdict r) = Some (VDict (metadata r)).
Proof. reflexivity. Qed.

Lemma asdict_function_call_id r :
  assoc "function_call_id" (asdict r) = Some (of_option (function_call_id r)).
Proof. reflexivity. Qed.

Lemma handle_unknown dec id env w :
  approvals w !! id = None →
  handle dec id env w
    = (Exc (HTTPException 404 (VStr ("Ticket " +:+ id +:+ " not found"))), w).
Proof.
  intros H. destruct dec; unfold handle, approve_request, reject_request,
    Manager.get_approval; run_M; by rewrite H.
Qed.

Lemma handle_terminal dec id env w r :
  approvals w !! id = Some r →
  is_terminal (status r) = true →
  handle dec id env w
    = (Exc (HTTPException 404
              (VStr (Manager.already_terminal_message id (status r)))), w).
Proof.
  intros H Ht. destruct dec; unfold handle, approve_request, reject_request,
    Manager.get_approval, Manager.approve, Manager.reject, Manager.decide_ticket;
    run_M; repeat (rewrite ?H, ?Ht; simpl); done.
Qed.

Lemma handle_pending dec id env w r :
  approvals w !! id = Some r →
  status r = pending →
  handle dec id env w
    = (Ok (HTMLResponse (confirmation dec id (VStr (claim_id r)))),
       (push_response_to_adk (asdict r) (decision_word dec) env
          (mkWorld (<[id := decided dec r (now env)]> (approvals w)) (trace w))).2).
Proof.
  intros H Hp.
  destruct dec; unfold handle, approve_request, reject_request,
    Manager.get_approval, Manager.approve, Manager.reject, Manager.decide_ticket;
    run_M; repeat (rewrite ?H, ?Hp; simpl).
  - destruct (push_total (asdict r) "approved" env
      (mkWorld (<[id := decided Approve r (now env)]> (approvals w)) (trace w)))
      as (b & evs & Hpush).
    simpl in Hpush. by rewrite Hpush.
  - destruct (push_total (asdict r) "rejected" env
      (mkWorld (<[id := decided Reject r (now env)]> (approvals w)) (trace w)))
      as (b & evs & Hpush).
    simpl in Hpush. by rewrite Hpush.
Qed.

(** ** Requests on a ticket that is already decided *)

(** C1, refuted as stated: after ticket [T1] was approved through its
    link, a second click on either link is not answered with a
    confirmation page: the handler raises and the caller gets status
    404. *)
Lemma second_click_is_not_confirmed :
  (∃ r, approvals world_T1_approved !! "T1" = Some r ∧
        is_terminal (status r) = true) ∧
  ¬ shows_confirmation (approve_request "T1" runtime_ok world_T1_approved).1 ∧
  ¬ shows_confirmation (reject_request "T1" runtime_ok world_T1_approved).1 ∧
  http_status (approve_request "T1" runtime_ok world_T1_approved).1 = 404%Z.
Proof.
  split; [|split; [|split]].
  - eexists. split; vm_compute; reflexivity.
  - intros [p Hp]. vm_compute in Hp. discriminate.
  - intros [p Hp]. vm_compute in Hp. discriminate.
  - vm_compute. reflexivity.
Qed.

(** C1, as amended: an approve or reject request on an existing ticket
    that is already in a terminal state raises [HTTPException] with
    status 404 and the store's error message as detail; no
    confirmation page is returned and the world (store and trace) is
    left as it was. *)
Theorem terminal_request_answers_404 dec id env w r :
  approvals w !! id = Some r →
  is_terminal (status r) = true →
  handle dec id env w
    = (Exc (HTTPException 404
              (VStr (Manager.already_terminal_message id (status r)))), w)
  ∧ http_status (handle dec id env w).1 = 404%Z
  ∧ ¬ shows_confirmation (handle dec id env w).1.
Proof.
  intros H Ht. rewrite (handle_terminal dec id env w r H Ht).
  split; [done|]. split; [done|]. by intros [p Hp].
Qed.

Lemma terminal_request_answers_404_witness :
  handle Reject "T1" runtime_ok world_T1_approved
    = (Exc (HTTPException 404 (VStr "Ticket T1 already approved")),
       world_T1_approved)
  ∧ http_status (handle Reject "T1" runtime_ok world_T1_approved).1 = 404%Z
  ∧ ¬ shows_confirmation (handle Reject "T1" runtime_ok world_T1_approved).1.
Proof.
  apply (terminal_request_answers_404 Reject "T1" runtime_ok world_T1_approved
           (decided Approve ticket_T1 (now runtime_ok))).
  - vm_compute. reflexivity.
  - reflexivity.
Defined.

(** ** Unknown tickets *)

Lemma get_status_unknown id env w :
  approvals w !! id = None →
  get_status id env w
    = (Exc (HTTPException 404 (VStr ("Ticket " +:+ id +:+ " not found"))), w).
Proof.
  intros H. unfold get_status, Manager.get_approval. run_M. by rewrite H.
Qed.

Lemma api_step_creates_only id c env w :
  ¬ creates id c →
  approvals w !! id = None →
  approvals (api_step c env w) !! id = None.
Proof.
  intros Hc Hw. destruct c as [new_id claim mail ty call_id si|dec id'| id'|];
    simpl in *.
  - unfold Manager.create; simpl. by rewrite lookup_insert_ne.
  - destruct (approvals w !! id') as [r|] eqn:Hid'.
    + destruct (is_terminal (status r)) eqn:Ht.
      * by rewrite (handle_terminal dec id' env w r Hid' Ht).
      * rewrite (handle_pending dec id' env w r Hid') by by destruct (status r).
        destruct (push_total (asdict r) (decision_word dec) env
          (mkWorld (<[id' := decided dec r (now env)]> (approvals w)) (trace w)))
          as (b & evs & ->). simpl.
        rewrite lookup_insert_ne; [done|]. intros ->. congruence.
    + by rewrite (handle_unknown dec id' env w Hid').
  - unfold get_status, Manager.get_approval. run_M.
    by destruct (approvals w !! id').
  - done.
Qed.

(** A ticket that no call created is not in the store. *)
Lemma never_created_unknown id cs w :
  Forall (fun c => ¬ creates id c.1) cs →
  approvals w !! id = None →
  approvals (api_run cs w) !! id = None.
Proof.
  revert w. induction cs as [|[c env] cs IH]; intros w Hcs Hw; [done|].
  inversion_clear Hcs as [|? ? Hc Hcs']. simpl.
  apply IH; [done|]. by apply api_step_creates_only.
Qed.

(** C4: whatever happened to the process since start-up, for a ticket
    identifier that no call created the approve, reject and status
    endpoints answer 404 with the detail [Ticket <id> not found], and
    the world after the request is the world before it: no record
    appears under the identifier. *)
Theorem unknown_ticket_answers_404 id cs env :
  Forall (fun c => ¬ creates id c.1) cs →
  let w := api_run cs initial_world in
  let not_found :=
    Exc (HTTPException 404 (VStr ("Ticket " +:+ id +:+ " not found"))) in
  approve_request id env w = (not_found, w)
  ∧ reject_request id env w = (not_found, w)
  ∧ get_status id env w = (not_found, w)
  ∧ http_status not_found = 404%Z
  ∧ approvals (approve_request id env w).2 !! id = None
  ∧ approvals (reject_request id env w).2 !! id = None
  ∧ approvals (get_status id env w).2 !! id = None.
Proof.
  intros Hcs w not_found.
  assert (Hw : approvals w !! id = None)
    by by apply never_created_unknown.
  pose proof (handle_unknown Approve id env w Hw) as Ha.
  pose proof (handle_unknown Reject id env w Hw) as Hr.
  pose proof (get_status_unknown id env w Hw) as Hs.
  simpl in Ha, Hr. rewrite Ha, Hr, Hs. by repeat split.
Qed.

Lemma unknown_ticket_answers_404_witness :
  approve_request "T-missing" runtime_ok
    (api_run [(CreateTicket "T1" "C1" "customer@example.com" "claim_verification"
                 (Some "call-1") session_demo, runtime_ok);
              (Click Approve "T1", runtime_ok)] initial_world)
  = (Exc (HTTPException 404 (VStr "Ticket T-missing not found")),
     api_run [(CreateTicket "T1" "C1" "customer@example.com" "claim_verification"
                 (Some "call-1") session_demo, runtime_ok);
              (Click Approve "T1", runtime_ok)] initial_world).
Proof.
  apply (unknown_ticket_answers_404 "T-missing"
           [(CreateTicket "T1" "C1" "customer@example.com" "claim_verification"
               (Some "call-1") session_demo, runtime_ok);
            (Click Approve "T1", runtime_ok)] runtime_ok).
  repeat constructor; simpl; [discriminate | tauto].
Defined.

(** ** The status endpoint *)

(** C8: for a ticket in the store, [get_status] returns the dictionary
    with exactly the six keys [ticket_id], [claim_id], [status],
    [request_type], [created_at], [updated_at], each holding the field
    of that ticket's record; for an unknown ticket it raises the 404
    exception.  Either way the world is unchanged. *)
Theorem get_status_fields id env w :
  match approvals w !! id with
  | Some r =>
    get_status id env w
    = (Ok (JSONResponse
             (VDict [ ("ticket_id", VStr (ticket_id r));
                      ("claim_id", VStr (claim_id r));
                      ("status", VStr (status_value (status r)));
                      ("request_type", VStr (request_type r));
                      ("created_at", VStr (created_at r));
                      ("updated_at", VStr (updated_at r)) ])), w)
  | None =>
    get_status id env w
    = (Exc (HTTPException 404 (VStr ("Ticket " +:+ id +:+ " not found"))), w)
    ∧ http_status (get_status id env w).1 = 404%Z
  end.
Proof.
  unfold get_status, Manager.get_approval. run_M.
  by destruct (approvals w !! id).
Qed.

(** ** Tickets without correlation data *)

Lemma push_lacks_correlation r st env w :
  lacks_correlation r →
  push_response_to_adk (asdict r) st env w
    = (Ok false, mkWorld (approvals w) (trace w ++ [Print MissingSessionInfo])).
Proof.
  intros [Hc|Hs]; unfold push_response_to_adk, push_body; run_M.
  - by rewrite Hc.
  - rewrite Hs. by destruct (truthy (of_option (function_call_id r))).
Qed.

Lemma lacks_correlation_absent r :
  function_call_id r = None ∨ assoc "session_info" (metadata r) = None →
  lacks_correlation r.
Proof. intros [H|H]; [left|right]; by rewrite H. Qed.

(** C6: when the record of a pending ticket has no function-call
    identifier, or no session information in its metadata, the handler
    of either link prints the warning and nothing else (no request is
    sent to the agent runtime), the ticket is decided, and the caller
    gets the confirmation page. *)
Theorem missing_correlation_skips_push dec id env w r :
  approvals w !! id = Some r →
  status r = pending →
  lacks_correlation r →
  handle dec id env w
    = (Ok (HTMLResponse (confirmation dec id (VStr (claim_id r)))),
       mkWorld (<[id := decided dec r (now env)]> (approvals w))
               (trace w ++ [Print MissingSessionInfo]))
  ∧ posts (trace (handle dec id env w).2) = posts (trace w)
  ∧ http_status (handle dec id env w).1 = 200%Z.
Proof.
  intros H Hp Hl.
  rewrite (handle_pending dec id env w r H Hp).
  rewrite (push_lacks_correlation r _ env _ Hl). simpl.
  split; [done|]. split; [|done].
  rewrite posts_app. simpl. lia.
Qed.

Lemma missing_correlation_skips_push_witness :
  handle Approve "T2" runtime_ok world_T1_T2
    = (Ok (HTMLResponse (confirmation Approve "T2" (VStr "C2"))),
       mkWorld (<["T2" := decided Approve ticket_T2 (now runtime_ok)]>
                  (approvals world_T1_T2))
               [Print MissingSessionInfo])
  ∧ posts (trace (handle Approve "T2" runtime_ok world_T1_T2).2) = 0
  ∧ http_status (handle Approve "T2" runtime_ok world_T1_T2).1 = 200%Z.
Proof.
  apply (missing_correlation_skips_push Approve "T2" runtime_ok world_T1_T2
           ticket_T2).
  - vm_compute. reflexivity.
  - reflexivity.
  - left. reflexivity.
Defined.

(** ** Delivery failures *)

(** C5: when the transition of a pending ticket goes through, the
    handler of either link returns the confirmation page and leaves
    the decided record in the store, whatever the agent runtime does
    with the request; a request answered with a status other than 200
    leaves the line [FailedToResume] on standard output, a request
    that raised leaves the lines [ErrorPushing] and [Traceback]. *)
Theorem delivery_failure_is_only_logged dec id env w r :
  approvals w !! id = Some r →
  status r = pending →
  ∃ evs,
    handle dec id env w
      = (Ok (HTMLResponse (confirmation dec id (VStr (claim_id r)))),
         mkWorld (<[id := decided dec r (now env)]> (approvals w))
                 (trace w ++ evs))
    ∧ http_status (handle dec id env w).1 = 200%Z
    ∧ status <$> approvals (handle dec id env w).2 !! id
        = Some (decision_status dec)
    ∧ ∀ url t body,
        Post url t body ∈ evs →
        match adk env url body with
        | Responded code text =>
          code ≠ 200%Z → Print (FailedToResume code text) ∈ evs
        | Raised e =>
          Print (ErrorPushing e) ∈ evs ∧ Print (Traceback e) ∈ evs
        end.
Proof.
  intros H Hp.
  rewrite (handle_pending dec id env w r H Hp).
  destruct (push_cases (asdict r) (decision_word dec) env
    (mkWorld (<[id := decided dec r (now env)]> (approvals w)) (trace w)))
    as (b & evs & -> & Hcases). simpl.
  exists evs. split; [done|]. split; [done|]. split.
  { rewrite lookup_insert_eq. by destruct dec. }
  intros url t body Hin.
  destruct Hcases as [(_ & -> & _)|[(_ & (e & ->) & _)
                     |(si & tail & _ & _ & _ & -> & Hout)]].
  - list_mem.
  - list_mem.
  - destruct (sent_request _ _ _ _ _ _ _ _ _ Hout Hin) as (-> & _ & ->).
    clear Hin.
    destruct (adk env (push_url_of env) _) as [c tx|e].
    + intros Hc. apply Z.eqb_neq in Hc. rewrite Hc in Hout.
      destruct Hout as [_ ->]. list_mem.
    + destruct Hout as [_ ->]. list_mem.
Qed.

Lemma delivery_failure_is_only_logged_witness :
  ∃ evs,
    handle Reject "T1" runtime_down world_T1
      = (Ok (HTMLResponse (confirmation Reject "T1" (VStr "C1"))),
         mkWorld (<["T1" := decided Reject ticket_T1 (now runtime_down)]>
                    (approvals world_T1))
                 (trace world_T1 ++ evs))
    ∧ http_status (handle Reject "T1" runtime_down world_T1).1 = 200%Z
    ∧ status <$> approvals (handle Reject "T1" runtime_down world_T1).2 !! "T1"
        = Some rejected
    ∧ ∀ url t body,
        Post url t body ∈ evs →
        match adk runtime_down url body with
        | Responded code text =>
          code ≠ 200%Z → Print (FailedToResume code text) ∈ evs
        | Raised e =>
          Print (ErrorPushing e) ∈ evs ∧ Print (Traceback e) ∈ evs
        end.
Proof.
  apply (delivery_failure_is_only_logged Reject "T1" runtime_down world_T1
           ticket_T1).
  - vm_compute. reflexivity.
  - reflexivity.
Defined.

(** ** The request sent to the agent runtime *)

Lemma get_session_info_dict d si :
  get (default (VDict []) (assoc "metadata" d)) "session_info" (VDict [])
    = Ok (VDict si) →
  si ≠ [] →
  ∃ md, assoc "metadata" d = Some (VDict md) ∧
        assoc "session_info" md = Some (VDict si).
Proof.
  intros Hg Hne.
  destruct (assoc "metadata" d) as [[| | | | |md]|]; simpl in Hg;
    try discriminate.
  - exists md. split; [done|].
    destruct (assoc "session_info" md) as [v|]; simpl in Hg; congruence.
  - congruence.
Qed.

Lemma truthy_default_Some (o : option value) :
  truthy (default VNone o) = true → ∃ v, o = Some v ∧ truthy v = true.
Proof. destruct o as [v|]; simpl; [eauto|discriminate]. Qed.

(** C7: every request that [push_response_to_adk] sends goes to
    [<ADK_API_URL>/run] (the variable defaulting to
    [http://localhost:8000]) and its body is the dictionary with the
    keys [app_name], [user_id], [session_id] and [new_message], the
    last one holding [role = "function"] and a one-element list
    [parts] whose element has the single key [function_response] with
    [name], [id] and [response]; the three session keys are read from
    the [session_info] entry of the ticket's metadata and [id] is the
    ticket's [function_call_id]. *)
Theorem resumption_request_shape d st env w :
  ∃ b evs,
    push_response_to_adk d st env w
      = (Ok b, mkWorld (approvals w) (trace w ++ evs))
    ∧ ∀ url t body,
        Post url t body ∈ evs →
        url = default "http://localhost:8000" (ADK_API_URL env) +:+ "/run"
        ∧ ∃ md si call_id,
            assoc "metadata" d = Some (VDict md)
            ∧ assoc "session_info" md = Some (VDict si)
            ∧ assoc "function_call_id" d = Some call_id
            ∧ body =
              VDict
                [ ("app_name", default VNone (assoc "app_name" si));
                  ("user_id", default VNone (assoc "user_id" si));
                  ("session_id", default VNone (assoc "session_id" si));
                  ("new_message",
                   VDict
                     [ ("role", VStr "function");
                       ("parts",
                        VList
                          [ VDict
                              [ ("function_response",
                                 VDict
                                   [ ("name", VStr "request_claim_approval");
                                     ("id", call_id);
                                     ("response",
                                      function_response st
                                        (default VNone (assoc "ticket_id" d))
                                        (default VNone (assoc "claim_id" d)))
                                   ]) ] ]) ]) ].
Proof.
  destruct (push_cases d st env w) as (b & evs & Hrun & Hcases).
  exists b, evs. split; [done|].
  intros url t body Hin.
  destruct Hcases as [(_ & -> & _)|[(_ & (e & ->) & _)
                     |(si & tail & Hsi & Hcall & Hne & -> & Hout)]].
  - list_mem.
  - list_mem.
  - destruct (sent_request _ _ _ _ _ _ _ _ _ Hout Hin) as (-> & _ & ->).
    split; [done|].
    destruct (get_session_info_dict d si Hsi Hne) as (md & Hmd & Hs).
    destruct (truthy_default_Some _ Hcall) as (call_id & Hc & _).
    exists md, si, call_id. repeat split; try done.
    unfold body_of, payload. by rewrite Hc.
Qed.

(** ** Totality and result of [push_response_to_adk] *)

(** C10: a call of [push_response_to_adk] always returns a boolean (no
    exception reaches the caller, and the store is untouched), and the
    boolean is [True] exactly when a request was sent and the agent
    runtime answered it with status 200. *)
Theorem push_returns_true_iff_200 d st env w :
  ∃ b evs,
    push_response_to_adk d st env w
      = (Ok b, mkWorld (approvals w) (trace w ++ evs))
    ∧ (b = true ↔
       ∃ url t body text,
         Post url t body ∈ evs ∧ adk env url body = Responded 200 text).
Proof.
  destruct (push_cases d st env w) as (b & evs & Hrun & Hcases).
  exists b, evs. split; [done|].
  destruct Hcases as [(-> & -> & _)|[(-> & (e & ->) & _)
                     |(si & tail & _ & _ & _ & -> & Hout)]].
  - split; [done|]. intros (url & t & body & text & Hin & _). list_mem.
  - split; [done|]. intros (url & t & body & text & Hin & _). list_mem.
  - split.
    + intros ->. destruct (adk env (push_url_of env) _) as [c tx|e] eqn:Ha.
      * destruct (c =? 200)%Z eqn:Hc; [|by destruct Hout].
        apply Z.eqb_eq in Hc as ->.
        exists (push_url_of env), 30%Z, (body_of d si st), tx.
        split; [list_mem|done].
      * by destruct Hout.
    + intros (url & t & body & text & Hin & Ha).
      destruct (sent_request _ _ _ _ _ _ _ _ _ Hout Hin) as (-> & _ & ->).
      rewrite Ha in Hout. by destruct Hout.
Qed.

(** ** The pending listing *)

Lemma filter_fmap_snd (P : ApprovalRequest → Prop) `{!∀ r, Decision (P r)}
    (l : list (string * ApprovalRequest)) :
  filter P (l.*2) = (filter (fun kv => P kv.2) l).*2.
Proof.
  induction l as [|[k r] l IH]; [done|].
  rewrite fmap_cons, !filter_cons. cbn [snd].
  destruct (decide (P r)); [rewrite fmap_cons|]; by rewrite IH.
Qed.

Lemma map_to_list_pending (m : gmap string ApprovalRequest) :
  map_to_list (pending_tickets m)
    ≡ₚ filter (fun kv => status kv.2 = pending) (map_to_list m).
Proof.
  unfold pending_tickets. rewrite map_filter_alt.
  apply map_to_list_to_map, NoDup_fmap_fst.
  - intros k r1 r2 [_ H1]%list_elem_of_filter [_ H2]%list_elem_of_filter.
    apply elem_of_map_to_list in H1, H2. congruence.
  - apply NoDup_filter, NoDup_map_to_list.
Qed.

(** C9: [get_pending_approvals] returns a dictionary with [count] and
    [pending_approvals]; the list holds one item per pending ticket of
    the store and nothing else, each item being the dictionary of that
    ticket's [ticket_id], [claim_id], [user_email], [request_type] and
    [created_at]; [count] is the number of pending tickets; no ticket
    in a terminal state is among the listed ones. *)
Theorem pending_listing env w :
  ∃ rs : list ApprovalRequest,
    get_pending_approvals env w
      = (Ok (JSONResponse
               (VDict
                  [ ("count", VInt (Z.of_nat (size (pending_tickets (approvals w)))));
                    ("pending_approvals",
                     VList
                       ((fun r =>
                           VDict [ ("ticket_id", VStr (ticket_id r));
                                   ("claim_id", VStr (claim_id r));
                                   ("user_email", VStr (user_email r));
                                   ("request_type", VStr (request_type r));
                                   ("created_at", VStr (created_at r)) ])
                          <$> rs)) ])), w)
    ∧ rs ≡ₚ (map_to_list (pending_tickets (approvals w))).*2
    ∧ length rs = size (pending_tickets (approvals w))
    ∧ (∀ r, r ∈ rs ↔ ∃ id, approvals w !! id = Some r ∧ status r = pending)
    ∧ (∀ r, r ∈ rs → is_terminal (status r) = false).
Proof.
  set (rs := filter (fun r => status r = pending) (map_to_list (approvals w)).*2).
  assert (Hperm : rs ≡ₚ (map_to_list (pending_tickets (approvals w))).*2).
  { unfold rs. by rewrite filter_fmap_snd, map_to_list_pending. }
  assert (Hlen : length rs = size (pending_tickets (approvals w))).
  { by rewrite Hperm, length_fmap, length_map_to_list. }
  assert (Hmem : ∀ r, r ∈ rs ↔ ∃ id, approvals w !! id = Some r ∧ status r = pending).
  { intros r. unfold rs. rewrite list_elem_of_filter, list_elem_of_fmap. split.
    - intros (Hp & [id r'] & -> & Hin). exists id.
      by apply elem_of_map_to_list in Hin.
    - intros (id & Hl & Hp). split; [done|]. exists (id, r).
      split; [done|]. by apply elem_of_map_to_list. }
  exists rs. split; [|split; [done|split; [done|split; [done|]]]].
  - unfold get_pending_approvals, Manager.get_all_pending. run_M.
    fold rs. by rewrite Hlen.
  - intros r (id & _ & Hp)%Hmem. by rewrite Hp.
Qed.

(** ** One transition per ticket *)

Lemma store_step_terminal id c env w r :
  approvals w !! id = Some r →
  is_terminal (status r) = true →
  approvals (store_step c env w) !! id = Some r.
Proof.
  intros H Ht.
  destruct c as [id' notes|id' reason]; simpl;
    unfold Manager.approve, Manager.reject, Manager.decide_ticket;
    (destruct (approvals w !! id') as [r'|] eqn:H'; [|done]);
    (destruct (is_terminal (status r')) eqn:Ht'; [done|]); simpl;
    (rewrite lookup_insert_ne; [done|]); intros ->; congruence.
Qed.

Lemma store_step_unknown id c env w :
  approvals w !! id = None →
  approvals (store_step c env w) !! id = None.
Proof.
  intros H.
  destruct c as [id' notes|id' reason]; simpl;
    unfold Manager.approve, Manager.reject, Manager.decide_ticket;
    (destruct (approvals w !! id') as [r'|] eqn:H'; [|done]);
    (destruct (is_terminal (status r')); [done|]); simpl;
    (rewrite lookup_insert_ne; [done|]); intros ->; congruence.
Qed.

(** What a call of the store does to one ticket: nothing, or the one
    transition out of [pending]. *)
Lemma store_step_pending id c env w r :
  approvals w !! id = Some r →
  status r = pending →
  approvals (store_step c env w) !! id = Some r
  ∨ ∃ r', approvals (store_step c env w) !! id = Some r'
          ∧ is_terminal (status r') = true.
Proof.
  intros H Hp.
  destruct c as [id' notes|id' reason]; simpl;
    unfold Manager.approve, Manager.reject, Manager.decide_ticket;
    (destruct (approvals w !! id') as [r'|] eqn:H'; [|by left]);
    (destruct (is_terminal (status r')) eqn:Ht'; [by left|]); simpl;
    (destruct (decide (id' = id)) as [->|Hne];
      [right; rewrite lookup_insert_eq; eauto
      |left; by rewrite lookup_insert_ne]).
Qed.

Lemma store_run_terminal id cs w r :
  approvals w !! id = Some r →
  is_terminal (status r) = true →
  approvals (store_run cs w) !! id = Some r.
Proof.
  revert w. induction cs as [|[c env] cs IH]; intros w H Ht; [done|].
  simpl. apply IH; [|done]. by apply store_step_terminal.
Qed.

Lemma status_changes_bound id cs w :
  status_changes id cs w ≤ open_transitions id w.
Proof.
  revert w. induction cs as [|[c env] cs IH]; intros w; simpl; [lia|].
  specialize (IH (store_step c env w)).
  unfold open_transitions, status_of in *.
  destruct (approvals w !! id) as [r|] eqn:H.
  - destruct (is_terminal (status r)) eqn:Ht.
    + rewrite (store_step_terminal id c env w r H Ht) in *.
      rewrite Ht in IH. rewrite decide_True by done. lia.
    + destruct (store_step_pending id c env w r H) as [H'|(r' & H' & Ht')];
        [by destruct (status r)| |]; rewrite H' in *.
      * rewrite Ht in IH. rewrite decide_True by done. lia.
      * rewrite Ht' in IH. case_decide; lia.
  - rewrite (store_step_unknown id c env w H) in *.
    rewrite decide_True by done. lia.
Qed.

(** C3: a ticket is created in state [pending]; over any sequence of
    approve and reject calls of the store its status changes at most
    once; and once a ticket is in a terminal state, no sequence of
    approve and reject calls changes its record, so [status] and
    [updated_at] stay as they are. *)
Theorem status_transitions_at_most_once id cs w :
  (∀ claim mail req_type call_id session_info env,
     status_of id
       (Manager.create id claim mail req_type call_id session_info env w).2
     = Some pending)
  ∧ status_changes id cs w ≤ 1
  ∧ (∀ r, approvals w !! id = Some r →
          is_terminal (status r) = true →
          approvals (store_run cs w) !! id = Some r
          ∧ status <$> approvals (store_run cs w) !! id = Some (status r)
          ∧ updated_at <$> approvals (store_run cs w) !! id
              = Some (updated_at r)).
Proof.
  split; [|split].
  - intros. unfold status_of, Manager.create. simpl.
    by rewrite lookup_insert_eq.
  - pose proof (status_changes_bound id cs w) as Hb.
    unfold open_transitions in Hb.
    destruct (approvals w !! id) as [r|]; [destruct (is_terminal _)|]; lia.
  - intros r H Ht. by rewrite (store_run_terminal id cs w r H Ht).
Qed.

Lemma status_transitions_at_most_once_witness :
  approvals
    (store_run [(CallReject "T1" "not mine", runtime_ok);
                (CallApprove "T1" "again", runtime_failing)]
               world_T1_approved) !! "T1"
  = Some (decided Approve ticket_T1 (now runtime_ok)).
Proof.
  apply (status_transitions_at_most_once "T1"
           [(CallReject "T1" "not mine", runtime_ok);
            (CallApprove "T1" "again", runtime_failing)]
           world_T1_approved).
  - vm_compute. reflexivity.
  - reflexivity.
Defined.

(** ** One resumption per ticket *)

(** What serving one request does to the store and to the number of
    requests sent, by the state of the targeted ticket. *)
Lemma serve_one_unknown rq w :
  approvals w !! target rq = None → serve_one rq w = w.
Proof.
  intros H. unfold serve_one. by rewrite (handle_unknown _ _ _ _ H).
Qed.

Lemma serve_one_terminal rq w r :
  approvals w !! target rq = Some r →
  is_terminal (status r) = true →
  serve_one rq w = w.
Proof.
  intros H Ht. unfold serve_one. by rewrite (handle_terminal _ _ _ _ _ H Ht).
Qed.

Lemma serve_one_pending rq w r :
  approvals w !! target rq = Some r →
  status r = pending →
  approvals (serve_one rq w)
    = <[target rq := decided (link rq) r (now (surroundings rq))]> (approvals w)
  ∧ posts (trace (serve_one rq w)) ≤ posts (trace w) + 1
  ∧ (has_correlation r →
     posts (trace (serve_one rq w)) = posts (trace w) + 1).
Proof.
  intros H Hp. unfold serve_one.
  rewrite (handle_pending _ _ _ _ _ H Hp).
  set (w1 := mkWorld _ (trace w)).
  pose proof (push_posts_le (asdict r) (decision_word (link rq))
                (surroundings rq) w1) as Hle.
  destruct (push_cases (asdict r) (decision_word (link rq)) (surroundings rq) w1)
    as (b & evs & Hrun & Hcases).
  rewrite Hrun in *. simpl in *. split; [done|]. split; [done|].
  intros (Hcall & si0 & Hsi0 & Hne0).
  rewrite posts_app.
  destruct Hcases as [(_ & _ & si & Hsi & Hf)|[(_ & _ & Hno)
                     |(si & tail & _ & _ & _ & -> & Hout)]].
  - rewrite Hsi0 in Hsi. simpl in Hsi. injection Hsi as <-.
    destruct Hf as [Hf|Hf]; [congruence|]. by destruct si0.
  - destruct (Hno si0). by rewrite Hsi0.
  - simpl.
    destruct (adk _ _ _) as [c tx|e].
    + destruct (c =? 200)%Z; destruct Hout as [_ ->]; simpl; lia.
    + destruct Hout as [_ ->]; simpl; lia.
Qed.

Lemma decided_terminal dec r stamp : is_terminal (status (decided dec r stamp)) = true.
Proof. by destruct dec. Qed.

Lemma posts_for_bound id rqs w :
  posts_for id rqs w ≤ open_transitions id w.
Proof.
  revert w. induction rqs as [|rq rqs IH]; intros w; simpl; [lia|].
  specialize (IH (serve_one rq w)). unfold open_transitions in *.
  destruct (approvals w !! target rq) as [r|] eqn:H.
  - destruct (is_terminal (status r)) eqn:Ht.
    + rewrite (serve_one_terminal rq w r H Ht) in *. case_decide; lia.
    + destruct (serve_one_pending rq w r H) as (Hst & Hle & _);
        [by destruct (status r)|].
      rewrite Hst in IH. case_decide as Hid.
      * subst id. rewrite H, Ht. rewrite lookup_insert_eq, decided_terminal in IH.
        lia.
      * rewrite lookup_insert_ne in IH by done. lia.
  - rewrite (serve_one_unknown rq w H) in *. case_decide; lia.
Qed.

Lemma posts_for_exact id rqs w r :
  approvals w !! id = Some r →
  status r = pending →
  has_correlation r →
  id ∈ target <$> rqs →
  posts_for id rqs w = 1.
Proof.
  revert w. induction rqs as [|rq rqs IH]; intros w H Hp Hc Hin; simpl.
  { by apply elem_of_nil in Hin. }
  case_decide as Hid.
  - subst id.
    destruct (serve_one_pending rq w r H Hp) as (Hst & _ & Hex).
    specialize (Hex Hc).
    pose proof (posts_for_bound (target rq) rqs (serve_one rq w)) as Hb.
    unfold open_transitions in Hb.
    rewrite Hst, lookup_insert_eq, decided_terminal in Hb. lia.
  - rewrite fmap_cons, elem_of_cons in Hin. destruct Hin as [Hin|Hin]; [done|].
    rewrite (IH (serve_one rq w)); [lia| |done|done|done].
    destruct (approvals w !! target rq) as [r'|] eqn:H'.
    + destruct (is_terminal (status r')) eqn:Ht.
      * by rewrite (serve_one_terminal rq w r' H' Ht).
      * destruct (serve_one_pending rq w r' H') as (Hst & _);
          [by destruct (status r')|].
        by rewrite Hst, lookup_insert_ne.
    + by rewrite (serve_one_unknown rq w H').
Qed.

Lemma attempt_error dec id env w res :
  (attempt dec id env w).1 = Ok res →
  eq_str (default VNone (assoc "status" res)) "error" = true →
  approvals w !! id = None
  ∨ ∃ r, approvals w !! id = Some r ∧ is_terminal (status r) = true.
Proof.
  intros Hres Herr.
  destruct (approvals w !! id) as [r|] eqn:H; [right|by left].
  exists r. split; [done|].
  destruct (is_terminal (status r)) eqn:Ht; [done|].
  destruct dec; simpl in Hres;
    unfold Manager.approve, Manager.reject, Manager.decide_ticket in Hres;
    rewrite H, Ht in Hres; simpl in Hres; injection Hres as <-;
    simpl in Herr; discriminate.
Qed.

(** C2: a request whose transition attempt returns an error result
    leaves the world as it is, so nothing is sent to the agent
    runtime; over any sequence of approve and reject requests at most
    one request is sent to the agent runtime on behalf of a ticket;
    and for a pending ticket with correlation data that is the target
    of at least one request of the sequence, exactly one is sent. *)
Theorem resumption_fires_once id rqs w :
  (∀ rq res,
     (attempt (link rq) (target rq) (surroundings rq) w).1 = Ok res →
     eq_str (default VNone (assoc "status" res)) "error" = true →
     serve_one rq w = w)
  ∧ posts_for id rqs w ≤ 1
  ∧ (∀ r, approvals w !! id = Some r →
          is_terminal (status r) = true →
          posts_for id rqs w = 0)
  ∧ (∀ r, approvals w !! id = Some r →
          status r = pending →
          has_correlation r →
          id ∈ target <$> rqs →
          posts_for id rqs w = 1).
Proof.
  split; [|split; [|split]].
  - intros rq res Hres Herr.
    destruct (attempt_error _ _ _ _ _ Hres Herr) as [H|(r & H & Ht)].
    + by apply serve_one_unknown.
    + by apply (serve_one_terminal rq w r).
  - pose proof (posts_for_bound id rqs w) as Hb. unfold open_transitions in Hb.
    destruct (approvals w !! id) as [r|]; [destruct (is_terminal _)|]; lia.
  - intros r H Ht.
    pose proof (posts_for_bound id rqs w) as Hb. unfold open_transitions in Hb.
    rewrite H, Ht in Hb. lia.
  - intros r. apply posts_for_exact.
Qed.

Lemma resumption_fires_once_witness :
  posts_for "T1"
    [ mkRequest Approve "T1" runtime_failing;
      mkRequest Approve "T1" runtime_ok;
      mkRequest Reject "T1" runtime_ok ] world_T1 = 1.
Proof.
  apply (resumption_fires_once "T1"
           [ mkRequest Approve "T1" runtime_failing;
             mkRequest Approve "T1" runtime_ok;
             mkRequest Reject "T1" runtime_ok ] world_T1) with ticket_T1.
  - vm_compute. reflexivity.
  - reflexivity.
  - split; [reflexivity|]. eexists. split; [reflexivity|discriminate].
  - rewrite !fmap_cons. simpl. apply list_elem_of_here.
Defined.

(** ** The handlers, whatever the store answers *)

(** The handler of a link is its lookup, the store's transition, and
    [after_transition] on what the transition returned. *)
Lemma handle_factors dec id env w :
  handle dec id env w =
  match approvals w !! id with
  | None =>
    (Exc (HTTPException 404 (VStr ("Ticket " +:+ id +:+ " not found"))), w)
  | Some req =>
    match attempt dec id env w with
    | (Ok res, w1) => after_transition dec id (asdict req) res env w1
    | (Exc e, w1) => (Exc e, w1)
    end
  end.
Proof.
  destruct dec; unfold handle, approve_request, reject_request, attempt,
    after_transition, Manager.get_approval; run_M;
    by destruct (approvals w !! id) as [req|] eqn:H.
Qed.

Lemma after_transition_cases dec id approval_dict res env w :
  after_transition dec id approval_dict res env w =
  match assoc "status" res with
  | None => (Exc (KeyError "status"), w)
  | Some st =>
    if eq_str st "error" then
      match assoc "message" res with
      | Some message => (Exc (HTTPException 404 message), w)
      | None => (Exc (KeyError "message"), w)
      end
    else
      (Ok (HTMLResponse
             (confirmation dec id (default (VStr "N/A") (assoc "claim_id" res)))),
       (push_response_to_adk approval_dict (decision_word dec) env w).2)
  end.
Proof.
  unfold after_transition, getitem. run_M.
  destruct (assoc "status" res) as [st|]; [|done].
  destruct (eq_str st "error").
  - by destruct (assoc "message" res).
  - destruct (push_total approval_dict (decision_word dec) env w)
      as (b & evs & Hpush). by rewrite Hpush.
Qed.

Lemma raised_not_confirmation e : ¬ shows_confirmation (Exc e).
Proof. by intros [p Hp]. Qed.

(** X1: the confirmation page is returned exactly when the store's result
    has a [status] that is not the string ["error"]; then the world is
    the one left by one call of [push_response_to_adk] on the snapshot,
    and the page shows the ticket identifier of the URL and the
    result's [claim_id], or ["N/A"] when the result has none.  In every
    other case the handler raises and the world is left as it was: no
    path confirms without the push, and none pushes without
    confirming. *)
Theorem confirmation_iff_push dec id approval_dict res env w :
  (shows_confirmation (after_transition dec id approval_dict res env w).1
   ↔ ∃ st, assoc "status" res = Some st ∧ eq_str st "error" = false)
  ∧ (shows_confirmation (after_transition dec id approval_dict res env w).1 →
     after_transition dec id approval_dict res env w
     = (Ok (HTMLResponse
              (confirmation dec id
                 (default (VStr "N/A") (assoc "claim_id" res)))),
        (push_response_to_adk approval_dict (decision_word dec) env w).2))
  ∧ (¬ shows_confirmation (after_transition dec id approval_dict res env w).1 →
     (after_transition dec id approval_dict res env w).2 = w).
Proof.
  rewrite after_transition_cases.
  destruct (assoc "status" res) as [st|] eqn:Hst;
    [destruct (eq_str st "error") eqn:Herr;
     [destruct (assoc "message" res) as [m|]|]|]; simpl.
  - split; [split|split]; try done.
    + by intros ?%raised_not_confirmation.
    + intros (st' & ? & ?). congruence.
    + by intros ?%raised_not_confirmation.
  - split; [split|split]; try done.
    + by intros ?%raised_not_confirmation.
    + intros (st' & ? & ?). congruence.
    + by intros ?%raised_not_confirmation.
  - split; [split|split]; try done.
    + eauto.
    + intros _. by eexists.
    + intros Hn. destruct Hn. by eexists.
  - split; [split|split]; try done.
    + by intros ?%raised_not_confirmation.
    + by intros (st' & ? & ?).
    + by intros ?%raised_not_confirmation.
Qed.


(** ** When [push_response_to_adk] contacts the runtime *)

(** X3: a call sends one request or none, and it sends one exactly when the
    dictionary's [function_call_id] is truthy and its [metadata] is a
    dictionary whose [session_info] is a non-empty dictionary. *)
Theorem post_sent_iff_correlation d st env w :
  ∃ b evs,
    push_response_to_adk d st env w
      = (Ok b, mkWorld (approvals w) (trace w ++ evs))
    ∧ posts evs ≤ 1
    ∧ (posts evs = 1 ↔
       truthy (default VNone (assoc "function_call_id" d)) = true
       ∧ ∃ md si, assoc "metadata" d = Some (VDict md)
                  ∧ assoc "session_info" md = Some (VDict si)
                  ∧ si ≠ []).
Proof.
  destruct (push_cases d st env w) as (b & evs & Hrun & Hcases).
  exists b, evs. split; [done|].
  destruct Hcases as [(_ & -> & si & Hsi & Hf)|[(_ & (e & ->) & Hno)
                     |(si & tail & Hsi & Hcall & Hne & -> & Hout)]].
  - simpl. split; [lia|]. split; [done|].
    intros (Hc & md & si' & Hmd & Hs & Hne).
    rewrite Hmd in Hsi. simpl in Hsi. rewrite Hs in Hsi. simpl in Hsi.
    injection Hsi as <-. destruct Hf as [Hf|Hf]; [congruence|].
    by destruct si'.
  - simpl. split; [lia|]. split; [done|].
    intros (_ & md & si' & Hmd & Hs & _).
    destruct (Hno si'). rewrite Hmd. simpl. by rewrite Hs.
  - assert (Htail : posts tail = 0).
    { destruct (adk env _ _) as [c tx|e].
      - by destruct (c =? 200)%Z; destruct Hout as [_ ->].
      - by destruct Hout as [_ ->]. }
    rewrite posts_app, Htail. simpl. split; [lia|]. split; [|done].
    intros _. split; [done|].
    destruct (get_session_info_dict d si Hsi Hne) as (md & Hmd & Hs). eauto.
Qed.

(** X4: a [metadata] entry that is not a dictionary (for instance [None]),
    or a truthy [session_info] that is not a dictionary next to a
    truthy [function_call_id], makes the [.get] call raise inside the
    [try] block: the call returns [False], prints the error and the
    traceback instead of the missing-session warning, and sends
    nothing. *)
Theorem malformed_correlation_is_swallowed d st env w :
  (∃ md, assoc "metadata" d = Some md ∧ is_dict md = false)
  ∨ (∃ md si, assoc "metadata" d = Some (VDict md)
              ∧ assoc "session_info" md = Some si
              ∧ is_dict si = false ∧ truthy si = true
              ∧ truthy (default VNone (assoc "function_call_id" d)) = true) →
  push_response_to_adk d st env w
  = (Ok false,
     mkWorld (approvals w)
             (trace w ++ [ Print (ErrorPushing (AttributeError "get"));
                           Print (Traceback (AttributeError "get")) ])).
Proof.
  intros [(md & Hmd & Hd)|(md & si & Hmd & Hsi & Hd & Ht & Hc)];
    unfold push_response_to_adk, push_body; run_M; rewrite Hmd; simpl.
  - destruct md; try discriminate; simpl; by rewrite <- app_assoc.
  - rewrite Hsi. simpl. rewrite Hc, Ht. simpl.
    destruct si; try discriminate; simpl; by rewrite <- app_assoc.
Qed.

Lemma malformed_correlation_is_swallowed_witness :
  push_response_to_adk
    [ ("ticket_id", VStr "T1"); ("function_call_id", VStr "call-1");
      ("metadata", VNone) ] "approved" runtime_ok world_T1
  = (Ok false,
     mkWorld (approvals world_T1)
             (trace world_T1 ++ [ Print (ErrorPushing (AttributeError "get"));
                                  Print (Traceback (AttributeError "get")) ])).
Proof.
  apply (malformed_correlation_is_swallowed
           [ ("ticket_id", VStr "T1"); ("function_call_id", VStr "call-1");
             ("metadata", VNone) ] "approved" runtime_ok world_T1).
  left. exists VNone. split; reflexivity.
Defined.

(** X5: the call reads four keys of the request dictionary and no other:
    two dictionaries that agree on [metadata], [function_call_id],
    [ticket_id] and [claim_id] give the same result, the same output
    and the same request. *)
Theorem push_reads_four_keys d d' st env w :
  (∀ k, k ∈ keys_read → assoc k d = assoc k d') →
  push_response_to_adk d st env w = push_response_to_adk d' st env w.
Proof.
  intros H.
  assert (Hm : assoc "metadata" d = assoc "metadata" d')
    by (apply H; unfold keys_read; list_mem).
  assert (Hc : assoc "function_call_id" d = assoc "function_call_id" d')
    by (apply H; unfold keys_read; list_mem).
  assert (Ht : assoc "ticket_id" d = assoc "ticket_id" d')
    by (apply H; unfold keys_read; list_mem).
  assert (Hl : assoc "claim_id" d = assoc "claim_id" d')
    by (apply H; unfold keys_read; list_mem).
  unfold push_response_to_adk, push_body, get. run_M.
  by rewrite Hm, Hc, Ht, Hl.
Qed.

Lemma push_reads_four_keys_witness :
  push_response_to_adk (asdict ticket_T1) "approved" runtime_ok world_T1
  = push_response_to_adk
      (asdict (decided Approve ticket_T1 (now runtime_ok)))
      "approved" runtime_ok world_T1.
Proof.
  apply (push_reads_four_keys (asdict ticket_T1)
           (asdict (decided Approve ticket_T1 (now runtime_ok)))
           "approved" runtime_ok world_T1).
  intros k Hk. unfold keys_read in Hk.
  rewrite !elem_of_cons, elem_of_nil in Hk.
  destruct Hk as [->|[->|[->|[->|[]]]]]; reflexivity.
Defined.

(** ** The agent server's pending listing *)

(** X6: the dictionary that [get_pending_approvals] of [src/server.py]
    returns never has the type the function declares,
    [dict[str, list[ApprovalStatus]]]: it has the two keys [count] and
    [pending_approvals], and [count] holds an integer. *)
Theorem server_listing_breaks_annotation env w :
  ∃ d, Server.get_pending_approvals env w = (Ok d, w)
       ∧ d.*1 = ["count"; "pending_approvals"]
       ∧ (∃ n, d !! 0 = Some ("count", Server.Count n))
       ∧ Server.matches_annotation d = false.
Proof.
  unfold Server.get_pending_approvals, Manager.get_all_pending. run_M.
  eexists. split; [reflexivity|]. split; [done|]. split; [by eexists|done].
Qed.

(** X7: the two pending listings agree: on the same store the endpoint of
    [src/approval_api.py] and the function of [src/server.py] report
    the same count and the same tickets in the same order, with the
    same [ticket_id], [claim_id], [user_email] and [created_at]; the
    first adds [request_type], the second adds [status], which is
    always ["pending"]. *)
Theorem pending_listings_agree env w :
  ∃ rs : list ApprovalRequest,
    get_pending_approvals env w
    = (Ok (JSONResponse
             (VDict
                [ ("count", VInt (Z.of_nat (length rs)));
                  ("pending_approvals",
                   VList
                     ((fun r =>
                         VDict [ ("ticket_id", VStr (ticket_id r));
                                 ("claim_id", VStr (claim_id r));
                                 ("user_email", VStr (user_email r));
                                 ("request_type", VStr (request_type r));
                                 ("created_at", VStr (created_at r)) ])
                        <$> rs)) ])), w)
    ∧ Server.get_pending_approvals env w
      = (Ok [ ("count", Server.Count (Z.of_nat (length rs)));
              ("pending_approvals",
               Server.Models
                 ((fun r =>
                     ApprovalStatus.mk (ticket_id r) (claim_id r)
                       (user_email r) "pending" (created_at r))
                    <$> rs)) ], w).
Proof.
  exists (filter (fun r => status r = pending) (map_to_list (approvals w)).*2).
  unfold get_pending_approvals, Server.get_pending_approvals,
    Manager.get_all_pending. run_M.
  split; [done|]. do 6 f_equal.
  apply list_fmap_ext. intros i r Hr.
  apply list_elem_of_lookup_2, list_elem_of_filter in Hr as [Hp _].
  by rewrite Hp.
Qed.

(** ** The report of the e-mail test *)

(** X8: the report needs the keys [status], [recipient] and [subject]: with
    all three it runs to its end and returns the dictionary it was
    given; without one of them it raises [KeyError] for the first one
    missing, having printed only the header and the fields before it,
    so that neither the outcome nor the error message of the result is
    ever shown. *)
Theorem report_needs_three_keys res out :
  match assoc "status" res, assoc "recipient" res, assoc "subject" res with
  | Some st, Some recipient, Some subject =>
    (TestEmail.report res out).1 = Ok res
    ∧ last (TestEmail.report res out).2 = Some (TestEmail.Rule "=")
  | None, _, _ =>
    TestEmail.report res out
    = (Exc (KeyError "status"),
       out ++ [TestEmail.Rule "-"; TestEmail.ResultHeader])
  | Some st, None, _ =>
    TestEmail.report res out
    = (Exc (KeyError "recipient"),
       out ++ [TestEmail.Rule "-"; TestEmail.ResultHeader;
               TestEmail.StatusField st])
  | Some st, Some recipient, None =>
    TestEmail.report res out
    = (Exc (KeyError "subject"),
       out ++ [TestEmail.Rule "-"; TestEmail.ResultHeader;
               TestEmail.StatusField st; TestEmail.RecipientField recipient])
  end.
Proof.
  unfold TestEmail.report, TestEmail.item, TestEmail.tell, getitem,
    mbind, TestEmail.W_bind, TestEmail.wbind, mret, TestEmail.W_ret,
    TestEmail.wret.
  destruct (assoc "status" res) as [st|]; simpl;
    [|by rewrite <- !app_assoc].
  destruct (assoc "recipient" res) as [rc|]; simpl;
    [|by rewrite <- !app_assoc].
  destruct (assoc "subject" res) as [sb|]; simpl;
    [|by rewrite <- !app_assoc].
  destruct (truthy (default VNone (assoc "demo_mode" res))); simpl;
    (destruct (eq_str st "success"); simpl;
     [|destruct (assoc "error" res) as [e|]; simpl;
       [destruct (truthy e); simpl|]]);
    (split; [done|apply last_snoc]).
Qed.

(** X9: for a result with the three keys, the lines of the report follow
    the result: the success banner appears exactly when [status] is the
    string ["success"], the inbox hint exactly when moreover
    [demo_mode] is falsy, and the error line (showing [message], or
    [None] when the result has none) exactly when [status] is anything
    else; the mode line depends on [demo_mode] alone, so a failed
    send outside demo mode is still reported under the production
    mode line. *)
Theorem report_outcome_lines res st recipient subject :
  assoc "status" res = Some st →
  assoc "recipient" res = Some recipient →
  assoc "subject" res = Some subject →
  let out := (TestEmail.report res []).2 in
  let demo := truthy (default VNone (assoc "demo_mode" res)) in
  (TestEmail.SentSuccessfully ∈ out ↔ eq_str st "success" = true)
  ∧ (TestEmail.CheckInbox ∈ out ↔ eq_str st "success" = true ∧ demo = false)
  ∧ ((∃ v, TestEmail.ErrorMessage v ∈ out) ↔ eq_str st "success" = false)
  ∧ (eq_str st "success" = false →
     TestEmail.ErrorMessage (default VNone (assoc "message" res)) ∈ out)
  ∧ (TestEmail.ModeDemo ∈ out ↔ demo = true)
  ∧ (TestEmail.ModeProduction ∈ out ↔ demo = false).
Proof.
  intros Hst Hrc Hsb.
  unfold TestEmail.report, TestEmail.item, TestEmail.tell, getitem,
    mbind, TestEmail.W_bind, TestEmail.wbind, mret, TestEmail.W_ret,
    TestEmail.wret.
  rewrite Hst, Hrc, Hsb. simpl.
  destruct (truthy (default VNone (assoc "demo_mode" res))); simpl;
    (destruct (eq_str st "success"); simpl;
     [|destruct (assoc "error" res) as [e|]; simpl;
       [destruct (truthy e); simpl|]]);
    repeat split; try (intros [v Hv]); intros; list_mem;
    try (eexists; list_mem).
Qed.

Lemma report_outcome_lines_witness :
  TestEmail.SentSuccessfully ∈ (TestEmail.report TestEmail.demo_success []).2
  ↔ eq_str (VStr "success") "success" = true.
Proof.
  apply (report_outcome_lines TestEmail.demo_success (VStr "success")
           (VStr "analyticsrepo@gmail.com")
           (VStr "Test - Insurance Notification System"));
    reflexivity.
Defined.
